(** * Bayesian linear regression example (examples/bayesian_linear_regression.py)

    A shallow embedding of the example script: the [LinearModel] class with
    its [log_prob] method, the toy data generator [build_toy_dataset] and the
    top-level statements of the script.

    Modelling conventions.
    - Array and tensor entries are real numbers ([R]); the rounding of
      floating-point arithmetic is abstracted, the one explicit cast of the
      script ([dtype=tf.float32]) is kept as a parameter.
    - Python exceptions are the [Raise] results of [result]; code that reads
      or writes an object or the interpreter's global state runs in the
      state-and-exception monad [M].
    - Tensors are typed by rank: [vector] is a rank-1 tensor, [matrix] a
      rank-2 tensor that records its number of columns, so that an
      [n x 0] and a [0 x c] tensor keep their shape.
    - NumPy and TensorFlow primitives are modelled after their documented
      semantics, at the ranks at which the script uses them. *)

From Stdlib Require Import String Reals Lra ZArith Lia Bool List Permutation.
Import ListNotations.

Local Open Scope R_scope.

(** ** Exceptions and the state-and-exception monad *)

Inductive exn : Type :=
| ValueError (msg : string).

Inductive result (A : Type) : Type :=
| Ok (a : A)
| Raise (e : exn).

Arguments Ok {A} a.
Arguments Raise {A} e.

(** A computation over a store [St]: the store survives an exception, as a
    Python object does. *)
Definition M (St A : Type) : Type := St -> result A * St.

Definition ret {St A} (a : A) : M St A := fun s => (Ok a, s).

Definition bind {St A B} (c : M St A) (k : A -> M St B) : M St B :=
  fun s =>
    match c s with
    | (Ok a, s') => k a s'
    | (Raise e, s') => (Raise e, s')
    end.

Definition lift {St A} (r : result A) : M St A := fun s => (r, s).

Definition gets {St A} (f : St -> A) : M St A := fun s => (Ok (f s), s).

Definition modify {St} (f : St -> St) : M St unit := fun s => (Ok tt, f s).

Declare Scope monad_scope.
Delimit Scope monad_scope with monad.
Notation "x <- c1 ;; c2" := (bind c1 (fun x => c2))
  (at level 61, c1 at next level, right associativity) : monad_scope.
Notation "c1 ;; c2" := (bind c1 (fun _ => c2))
  (at level 61, right associativity) : monad_scope.

(** ** Tensors *)

Definition vector : Type := list R.

Record matrix : Type := Mat { ncols : nat; rows : list (list R) }.

Definition nrows (t : matrix) : nat := length (rows t).

(** [t] has shape [(r, c)]. *)
Definition has_shape (t : matrix) (r c : nat) : Prop :=
  nrows t = r /\ ncols t = c /\ Forall (fun row => length row = c) (rows t).

Fixpoint sum_list (l : list R) : R :=
  match l with
  | [] => 0
  | a :: l' => a + sum_list l'
  end.

Fixpoint zip_with {A B C} (f : A -> B -> C) (a : list A) (b : list B) : list C :=
  match a, b with
  | x :: a', y :: b' => f x y :: zip_with f a' b'
  | _, _ => []
  end.

(** *** Broadcasting *)

Definition err_broadcast : exn :=
  ValueError "operands could not be broadcast together".

(** The broadcast of two dimensions: equal, or one of them is 1. *)
Definition bcast_dim (m n : nat) : result nat :=
  if Nat.eqb m n then Ok m
  else if Nat.eqb m 1 then Ok n
  else if Nat.eqb n 1 then Ok m
  else Raise err_broadcast.

(** The entries along one axis whose dimensions broadcast. *)
Definition bcast {A B C} (da : A) (db : B) (f : A -> B -> C)
    (a : list A) (b : list B) : list C :=
  if Nat.eqb (length a) (length b) then zip_with f a b
  else if Nat.eqb (length a) 1 then map (f (hd da a)) b
  else map (fun x => f x (hd db b)) a.

(** An elementwise binary operation on rank-2 tensors. *)
Definition mat_binop (f : R -> R -> R) (a b : matrix) : result matrix :=
  match bcast_dim (nrows a) (nrows b), bcast_dim (ncols a) (ncols b) with
  | Ok _, Ok c => Ok (Mat c (bcast [] [] (bcast 0 0 f) (rows a) (rows b)))
  | Raise e, _ => Raise e
  | _, Raise e => Raise e
  end.

(** An elementwise binary operation on rank-1 tensors. *)
Definition vec_binop (f : R -> R -> R) (a b : vector) : result vector :=
  match bcast_dim (length a) (length b) with
  | Ok _ => Ok (bcast 0 0 f a b)
  | Raise e => Raise e
  end.

(** A rank-1 tensor of shape [(n,)] broadcasts against rank 2 as [(1, n)]. *)
Definition as_row (v : vector) : matrix := Mat (length v) [v].

(** *** TensorFlow primitives *)

(** [t[:, j]] *)
Definition tf_slice_col (t : matrix) (j : nat) : result vector :=
  if Nat.ltb j (ncols t) then Ok (map (fun row => nth j row 0) (rows t))
  else Raise (ValueError "slice index out of bounds").

(** [a * b] on rank-2 tensors *)
Definition tf_mul (a b : matrix) : result matrix := mat_binop Rmult a b.

(** [a - b] on rank-2 tensors *)
Definition tf_sub (a b : matrix) : result matrix := mat_binop Rminus a b.

(** [a + b] with [a] of rank 2 and [b] of rank 1 *)
Definition tf_add_mv (a : matrix) (b : vector) : result matrix :=
  mat_binop Rplus a (as_row b).

(** [a + b] on rank-1 tensors *)
Definition tf_add_vv (a b : vector) : result vector := vec_binop Rplus a b.

(** [tf.reduce_sum(t, axis)] on a rank-2 tensor *)
Definition tf_reduce_sum (t : matrix) (axis : nat) : result vector :=
  match axis with
  | 0%nat => Ok (map (fun j => sum_list (map (fun row => nth j row 0) (rows t)))
                     (seq 0 (ncols t)))
  | 1%nat => Ok (map sum_list (rows t))
  | _ => Raise (ValueError "Invalid reduction dimension")
  end.

(** [tf.expand_dims(v, axis)] on a rank-1 tensor *)
Definition tf_expand_dims (v : vector) (axis : nat) : result matrix :=
  match axis with
  | 0%nat => Ok (Mat (length v) [v])
  | 1%nat => Ok (Mat 1 (map (fun a => [a]) v))
  | _ => Raise (ValueError "dim out of range")
  end.

Definition dot (a b : list R) : R := sum_list (zip_with Rmult a b).

(** [tf.matmul(a, b)] *)
Definition tf_matmul (a b : matrix) : result matrix :=
  if Nat.eqb (ncols a) (nrows b)
  then Ok (Mat (ncols b)
             (map (fun ra =>
                     map (fun j => dot ra (map (fun rb => nth j rb 0) (rows b)))
                         (seq 0 (ncols b)))
                  (rows a)))
  else Raise (ValueError "Dimensions must be equal").

(** [tf.pow(t, k)] with an integer exponent *)
Definition tf_pow (t : matrix) (k : nat) : matrix :=
  Mat (ncols t) (map (map (fun a => a ^ k)) (rows t)).

(** [-v], [c * v] and [v / c] with a Python float [c] *)
Definition vec_neg (v : vector) : vector := map Ropp v.
Definition vec_scale (c : R) (v : vector) : vector := map (Rmult c) v.
Definition vec_div (v : vector) (c : R) : vector := map (fun a => a / c) v.

(** ** The model class *)

Record LinearModel : Type := {
  lik_variance : R;
  prior_variance : R;
  num_vars : Z
}.

(** [LinearModel.__init__] *)
Definition LinearModel_init (lik_variance prior_variance : R) : LinearModel :=
  {| lik_variance := lik_variance;
     prior_variance := prior_variance;
     num_vars := 2 |}.

(** The default arguments of [__init__]: [0.01] and [0.01]. *)
Definition default_variance : R := 1 / 100.

Local Open Scope monad_scope.

(** [LinearModel.log_prob]; the store is the object [self]. *)
Definition log_prob (xs zs : matrix) : M LinearModel vector :=
  y <- lift (tf_slice_col xs 0) ;;
  x <- lift (tf_slice_col xs 1) ;;
  pv <- gets prior_variance ;;
  zz <- lift (tf_mul zs zs) ;;
  s <- lift (tf_reduce_sum zz 1) ;;
  let log_prior := vec_scale (- pv) s in
  x <- lift (tf_expand_dims x 1) ;;
  z0 <- lift (tf_slice_col zs 0) ;;
  W <- lift (tf_expand_dims z0 0) ;;
  b <- lift (tf_slice_col zs 1) ;;
  xW <- lift (tf_matmul x W) ;;
  mus <- lift (tf_add_mv xW b) ;;
  y <- lift (tf_expand_dims y 1) ;;
  d <- lift (tf_sub mus y) ;;
  ss <- lift (tf_reduce_sum (tf_pow d 2) 0) ;;
  lv <- gets lik_variance ;;
  let log_lik := vec_div (vec_neg ss) lv in
  lift (tf_add_vv log_lik log_prior).

(** ** NumPy primitives *)

(** [np.linspace(start, stop, num)]: [num] evenly spaced samples, the end
    point included; a negative [num] is refused.  NumPy multiplies
    [arange(num)] by the step [(stop - start) / (num - 1)] when [num > 1] and
    by [stop - start] otherwise, then adds [start]; it also overwrites the
    last sample with [stop], which over the reals is the value it already
    has. *)
Definition np_linspace (start stop : R) (num : Z) : result vector :=
  if (num <? 0)%Z
  then Raise (ValueError "Number of samples must be non-negative")
  else
    let delta := stop - start in
    Ok (map (fun i : nat =>
               if (1 <? num)%Z
               then INR i * (delta / IZR (num - 1)) + start
               else INR i * delta + start)
            (seq 0 (Z.to_nat num))).

(** [np.concatenate] of rank-1 arrays *)
Definition np_concatenate (arrays : list vector) : result vector :=
  match arrays with
  | [] => Raise (ValueError "need at least one array to concatenate")
  | _ => Ok (concat arrays)
  end.

(** [a + b] on rank-1 arrays *)
Definition np_add (a b : vector) : result vector := vec_binop Rplus a b.

(** [v - c] with a Python float [c] *)
Definition vec_sub_scalar (v : vector) (c : R) : vector :=
  map (fun a => a - c) v.

(** [k] consecutive chunks of [c] entries, in row-major order *)
Fixpoint chunks (c : nat) (v : list R) (k : nat) : list (list R) :=
  match k with
  | O => []
  | S k' => firstn c v :: chunks c (skipn c v) k'
  end.

Definition err_reshape : exn :=
  ValueError "cannot reshape array into the requested shape".

(** [v.reshape((r, c))] on a rank-1 array; one dimension may be [-1] and is
    then inferred. *)
Definition np_reshape (v : vector) (shape : Z * Z) : result matrix :=
  let '(r, c) := shape in
  let size := Z.of_nat (length v) in
  if ((r =? -1) && (c =? -1))%Z
  then Raise (ValueError "can only specify one unknown dimension")
  else if ((r <? -1) || (c <? -1))%Z
  then Raise (ValueError "negative dimensions not allowed")
  else if (r =? -1)%Z
  then (if ((0 <? c) && (size mod c =? 0))%Z
        then Ok (Mat (Z.to_nat c) (chunks (Z.to_nat c) v (Z.to_nat (size / c))))
        else Raise err_reshape)
  else if (c =? -1)%Z
  then (if ((0 <? r) && (size mod r =? 0))%Z
        then Ok (Mat (Z.to_nat (size / r))
                   (chunks (Z.to_nat (size / r)) v (Z.to_nat r)))
        else Raise err_reshape)
  else if (size =? r * c)%Z
  then Ok (Mat (Z.to_nat c) (chunks (Z.to_nat c) v (Z.to_nat r)))
  else Raise err_reshape.

(** [np.concatenate((a, b), axis=1)] on rank-2 arrays *)
Definition np_concatenate_axis1 (a b : matrix) : result matrix :=
  if Nat.eqb (nrows a) (nrows b)
  then Ok (Mat (ncols a + ncols b) (zip_with (@app R) (rows a) (rows b)))
  else Raise (ValueError "all the input array dimensions except for the concatenation axis must match exactly").

(** ** The framework objects the script builds *)

Record Normal : Type := { normal_num_vars : Z }.

Record Variational : Type := { layers : list Normal }.

Record Data : Type := { data_table : matrix }.

Record MFVI : Type := {
  mfvi_model : LinearModel;
  mfvi_variational : Variational;
  mfvi_data : Data
}.

(** The calls the script makes that construct an object or reach state
    outside of the calling function, in the order in which they happen. *)
Inductive event : Type :=
| EvSetSeed (x : Z)
| EvLinearModel (m : LinearModel)
| EvVariational
| EvNormal (n : Z)
| EvAdd (layer : Normal)
| EvRvs (loc scale : R) (size : Z)
| EvConstant (t : matrix)
| EvData (t : matrix)
| EvMFVI (model : LinearModel) (variational : Variational) (data : Data)
| EvRun (inference : MFVI) (kwargs : list (string * Z)).

(** ** The script, over the external framework

    The random number generator of the framework is external: [rng] is the
    type of its states, [seeded x] the state after seeding with [x],
    [norm_rvs loc scale size g] the outcome of [norm.rvs(loc, scale,
    size=size)] in state [g] together with the state it leaves, and
    [float32] the rounding of the cast to [tf.float32]. *)

Section Framework.

Variable rng : Type.
Variable seeded : Z -> rng.
Variable norm_rvs : R -> R -> Z -> rng -> result vector * rng.
Variable float32 : R -> R.

(** The global state: the generator and the log of events. *)
Record world : Type := { np_random : rng; trace : list event }.

Definition emit (e : event) : M world unit :=
  modify (fun w => {| np_random := np_random w; trace := trace w ++ [e] |}).

(** [ed.set_seed(x)] *)
Definition ed_set_seed (x : Z) : M world unit :=
  modify (fun w => {| np_random := seeded x;
                      trace := trace w ++ [EvSetSeed x] |}).

(** [norm.rvs(loc, scale, size=size)]; draws from the global generator. *)
Definition stats_norm_rvs (loc scale : R) (size : Z) : M world vector :=
  fun w =>
    let '(r, g) := norm_rvs loc scale size (np_random w) in
    (r, {| np_random := g; trace := trace w ++ [EvRvs loc scale size] |}).

(** Every entry rounded to [tf.float32]. *)
Definition cast_float32 (t : matrix) : matrix :=
  Mat (ncols t) (map (map float32) (rows t)).

(** [tf.constant(t, dtype=tf.float32)] *)
Definition tf_constant_float32 (t : matrix) : M world matrix :=
  emit (EvConstant t) ;;
  ret (cast_float32 t).

(** [ed.Data(t)] *)
Definition ed_Data (t : matrix) : M world Data :=
  emit (EvData t) ;;
  ret {| data_table := t |}.

(** [build_toy_dataset].  The script is Python 2: [n_data/2] on integers is
    the floor division.  In [0.075*x + norm.rvs(...)] the product is
    evaluated before the draw. *)
Definition build_toy_dataset (n_data : Z) (noise_std : R) : M world Data :=
  ed_set_seed 0 ;;
  lo <- lift (np_linspace 0 2 (n_data / 2)) ;;
  hi <- lift (np_linspace 6 8 (n_data / 2)) ;;
  x <- lift (np_concatenate [lo; hi]) ;;
  let scaled := vec_scale (75 / 1000) x in
  noise <- stats_norm_rvs 0 noise_std n_data ;;
  y <- lift (np_add scaled noise) ;;
  let x := vec_div (vec_sub_scalar x 4) 4 in
  x <- lift (np_reshape x (n_data, 1%Z)) ;;
  y <- lift (np_reshape y (n_data, 1%Z)) ;;
  data <- lift (np_concatenate_axis1 y x) ;;
  data <- tf_constant_float32 data ;;
  ed_Data data.

(** [LinearModel(...)] *)
Definition LinearModel_new (lik prior : R) : M world LinearModel :=
  let m := LinearModel_init lik prior in
  emit (EvLinearModel m) ;;
  ret m.

(** [Variational()] *)
Definition Variational_new : M world Variational :=
  emit EvVariational ;;
  ret {| layers := [] |}.

(** [Normal(n)] *)
Definition Normal_new (n : Z) : M world Normal :=
  emit (EvNormal n) ;;
  ret {| normal_num_vars := n |}.

(** [variational.add(layer)]: the object with the layer added. *)
Definition Variational_add (v : Variational) (layer : Normal)
  : M world Variational :=
  emit (EvAdd layer) ;;
  ret {| layers := layers v ++ [layer] |}.

(** [ed.MFVI(model, variational, data)] *)
Definition MFVI_new (model : LinearModel) (variational : Variational)
    (data : Data) : M world MFVI :=
  emit (EvMFVI model variational data) ;;
  ret {| mfvi_model := model;
         mfvi_variational := variational;
         mfvi_data := data |}.

(** [inference.run] with keyword arguments; the loop itself belongs to the
    framework, the call and its keyword arguments are logged. *)
Definition MFVI_run (inference : MFVI) (kwargs : list (string * Z))
  : M world unit :=
  emit (EvRun inference kwargs).

(** The top-level statements of the script. *)
Definition main : M world unit :=
  ed_set_seed 42 ;;
  model <- LinearModel_new default_variance default_variance ;;
  variational <- Variational_new ;;
  layer <- Normal_new (num_vars model) ;;
  variational <- Variational_add variational layer ;;
  data <- build_toy_dataset 40 (1 / 10) ;;
  inference <- MFVI_new model variational data ;;
  MFVI_run inference
    [("n_iter"%string, 250%Z); ("n_minibatch"%string, 5%Z);
     ("n_print"%string, 10%Z)].

End Framework.

Arguments np_random {rng} w.
Arguments trace {rng} w.
Arguments build_toy_dataset {rng} seeded norm_rvs float32 n_data noise_std.
Arguments main {rng} seeded norm_rvs float32.
Arguments LinearModel_new {rng} lik prior.
Arguments Variational_new {rng}.
Arguments Normal_new {rng} n.
Arguments Variational_add {rng} v layer.
Arguments MFVI_new {rng} model variational data.
Arguments MFVI_run {rng} inference kwargs.
Arguments emit {rng} e.
Arguments ed_set_seed {rng} seeded x.
Arguments stats_norm_rvs {rng} norm_rvs loc scale size.
Arguments tf_constant_float32 {rng} float32 t.
Arguments ed_Data {rng} t.

(** ** Reading a trace *)

(** The four stages of the script. *)
Inductive stage : Type :=
| ConstructData
| InstantiateModel
| InstantiateVariational
| RunInference.

Definition stage_eqb (a b : stage) : bool :=
  match a, b with
  | ConstructData, ConstructData
  | InstantiateModel, InstantiateModel
  | InstantiateVariational, InstantiateVariational
  | RunInference, RunInference => true
  | _, _ => false
  end.

(** The stage an event belongs to; seeding belongs to none. *)
Definition stage_of (e : event) : option stage :=
  match e with
  | EvSetSeed _ => None
  | EvLinearModel _ => Some InstantiateModel
  | EvVariational | EvNormal _ | EvAdd _ => Some InstantiateVariational
  | EvRvs _ _ _ | EvConstant _ | EvData _ => Some ConstructData
  | EvMFVI _ _ _ | EvRun _ _ => Some RunInference
  end.

(** The stages of a trace, each maximal run of one stage counted once. *)
Fixpoint stages (tr : list event) : list stage :=
  match tr with
  | [] => []
  | e :: tr' =>
      match stage_of e with
      | None => stages tr'
      | Some s =>
          match stages tr' with
          | s' :: rest => if stage_eqb s s' then s' :: rest else s :: s' :: rest
          | [] => [s]
          end
      end
  end.

(** The keyword arguments of the calls of [inference.run] in a trace. *)
Fixpoint run_calls (tr : list event) : list (list (string * Z)) :=
  match tr with
  | [] => []
  | EvRun _ kwargs :: tr' => kwargs :: run_calls tr'
  | _ :: tr' => run_calls tr'
  end.

(** The inference objects on which [run] is called in a trace. *)
Fixpoint run_inferences (tr : list event) : list MFVI :=
  match tr with
  | [] => []
  | EvRun inference _ :: tr' => inference :: run_inferences tr'
  | _ :: tr' => run_inferences tr'
  end.

(** The seeds set in a trace. *)
Fixpoint seeds_set (tr : list event) : list Z :=
  match tr with
  | [] => []
  | EvSetSeed x :: tr' => x :: seeds_set tr'
  | _ :: tr' => seeds_set tr'
  end.

(** ** Closed forms *)

(** What [log_prob] evaluates to at one sample [z] with slope [z[0]] and
    intercept [z[1]]. *)
Definition log_prob_entry (self : LinearModel) (xs : matrix) (z : list R) : R :=
  let W := nth 0 z 0 in
  let b := nth 1 z 0 in
  - sum_list (map (fun row => (nth 1 row 0 * W + b - nth 0 row 0) ^ 2) (rows xs))
    / lik_variance self
  + - prior_variance self * sum_list (map (fun zj => zj * zj) z).

(** The logarithm of the density of the normal distribution with mean [mu]
    and variance [var], at [x]. *)
Definition norm_logpdf (x mu var : R) : R :=
  - ln (2 * PI * var) / 2 - (x - mu) ^ 2 / (2 * var).

(** The Gaussian log-joint, written from the words of the specification and
    of the class documentation and not from the body of [log_prob]: the sum
    over the data of [log Normal(y | x * z[0] + z[1], lik_variance)] plus the
    sum over the weights of [log Normal(z[j] | 0, prior_variance)]. *)
Definition gaussian_log_joint (self : LinearModel) (xs : matrix) (z : list R)
  : R :=
  sum_list (map (fun row => norm_logpdf (nth 0 row 0)
                              (nth 1 row 0 * nth 0 z 0 + nth 1 z 0)
                              (lik_variance self))
                (rows xs))
  + sum_list (map (fun zj => norm_logpdf zj 0 (prior_variance self)) z).

(** ** A small instance of the framework, to run the script on *)

Definition toy_seeded (x : Z) : Z := x.

Definition toy_norm_rvs (loc scale : R) (size : Z) (g : Z)
  : result vector * Z :=
  if (size <? 0)%Z
  then (Raise (ValueError "negative dimensions are not allowed"), g)
  else (Ok (repeat loc (Z.to_nat size)), (g + size)%Z).

Definition toy_float32 (a : R) : R := a.

Definition toy_world : world Z := {| np_random := 7%Z; trace := [] |}.

(** The table [build_toy_dataset] assembles from the inputs [x] and the
    noise: the output [0.075 * x + noise] in the first column, the input
    rescaled to [(x - 4) / 4] in the second. *)
Definition toy_table (x noise : vector) : matrix :=
  Mat 2 (zip_with (fun yi xi => [yi; xi])
           (zip_with Rplus (vec_scale (75 / 1000) x) noise)
           (vec_div (vec_sub_scalar x 4) 4)).

(** An [n x 2] tensor given by its rows as pairs. *)
Definition table (d : list (R * R)) : matrix :=
  Mat 2 (map (fun p => [fst p; snd p]) d).

(** ** The events of a complete run of the script

    [x] is the array of inputs and [noise] the draw of [norm.rvs] inside
    [build_toy_dataset]. *)
Definition run_kwargs : list (string * Z) :=
  [("n_iter"%string, 250%Z); ("n_minibatch"%string, 5%Z);
   ("n_print"%string, 10%Z)].

Definition main_events (float32 : R -> R) (x noise : vector) : list event :=
  let model := LinearModel_init default_variance default_variance in
  let layer := {| normal_num_vars := 2 |} in
  let variational := {| layers := [layer] |} in
  let t := toy_table x noise in
  let data := {| data_table := cast_float32 float32 t |} in
  [EvSetSeed 42; EvLinearModel model; EvVariational; EvNormal 2; EvAdd layer;
   EvSetSeed 0; EvRvs 0 (1 / 10) 40; EvConstant t;
   EvData (cast_float32 float32 t);
   EvMFVI model variational data;
   EvRun {| mfvi_model := model; mfvi_variational := variational;
            mfvi_data := data |} run_kwargs].

(** * Properties *)

(** ** The primitives on small inputs *)

Example bcast_dim_3_1 : bcast_dim 3 1 = Ok 3%nat.
Proof. reflexivity. Qed.

Example bcast_dim_2_3 : bcast_dim 2 3 = Raise err_broadcast.
Proof. reflexivity. Qed.

Example np_add_row_scalar : np_add [1; 2; 3] [10] = Ok [1 + 10; 2 + 10; 3 + 10].
Proof. reflexivity. Qed.

Example np_add_empty_scalar : np_add [] [10] = Ok [].
Proof. reflexivity. Qed.

Example np_add_2_3 : np_add [1; 2] [1; 2; 3] = Raise err_broadcast.
Proof. reflexivity. Qed.

Example np_linspace_3 :
  np_linspace 0 2 3
  = Ok [INR 0 * ((2 - 0) / IZR (3 - 1)) + 0;
        INR 1 * ((2 - 0) / IZR (3 - 1)) + 0;
        INR 2 * ((2 - 0) / IZR (3 - 1)) + 0].
Proof. reflexivity. Qed.

Example np_linspace_1 : np_linspace 6 8 1 = Ok [INR 0 * (8 - 6) + 6].
Proof. reflexivity. Qed.

Example np_reshape_3_1 :
  np_reshape [1; 2; 3] (3%Z, 1%Z) = Ok (Mat 1 [[1]; [2]; [3]]).
Proof. reflexivity. Qed.

Example np_reshape_inferred :
  np_reshape [1; 2; 3; 4] ((-1)%Z, 2%Z) = Ok (Mat 2 [[1; 2]; [3; 4]]).
Proof. reflexivity. Qed.

Example np_reshape_2_into_3 :
  np_reshape [1; 2] (3%Z, 1%Z) = Raise err_reshape.
Proof. reflexivity. Qed.

Example tf_matmul_col_row :
  tf_matmul (Mat 1 [[2]; [3]]) (Mat 2 [[5; 7]])
  = Ok (Mat 2 [[2 * 5 + 0; 2 * 7 + 0]; [3 * 5 + 0; 3 * 7 + 0]]).
Proof. reflexivity. Qed.

Example tf_sub_column :
  tf_sub (Mat 2 [[1; 2]; [3; 4]]) (Mat 1 [[10]; [20]])
  = Ok (Mat 2 [[1 - 10; 2 - 10]; [3 - 20; 4 - 20]]).
Proof. reflexivity. Qed.

Example tf_reduce_sum_axis0 :
  tf_reduce_sum (Mat 2 [[1; 2]; [3; 4]]) 0 = Ok [1 + (3 + 0); 2 + (4 + 0)].
Proof. reflexivity. Qed.

Example tf_reduce_sum_no_rows : tf_reduce_sum (Mat 3 []) 0 = Ok [0; 0; 0].
Proof. reflexivity. Qed.

(** A table with a single column has no [xs[:, 1]]. *)
Example log_prob_one_column (self : LinearModel) :
  log_prob (Mat 1 [[1]]) (Mat 2 [[0; 0]]) self
  = (Raise (ValueError "slice index out of bounds"), self).
Proof. reflexivity. Qed.

(** ** Lists *)

Lemma zip_with_map_same {A B C D} (f : B -> C -> D) (g : A -> B) (h : A -> C)
    (l : list A) :
  zip_with f (map g l) (map h l) = map (fun a => f (g a) (h a)) l.
Proof.
  induction l as [|a l IH]; cbn; [reflexivity|]. now rewrite IH.
Qed.

Lemma zip_with_length {A B C} (f : A -> B -> C) (a : list A) (b : list B) :
  length a = length b -> length (zip_with f a b) = length a.
Proof.
  revert b; induction a as [|x a IH]; intros [|y b] H; cbn in *;
    try discriminate; [reflexivity|]. now rewrite IH by lia.
Qed.

Lemma map_seq_nth {A B} (F : A -> B) (d : A) (l : list A) :
  map (fun j => F (nth j l d)) (seq 0 (length l)) = map F l.
Proof.
  induction l as [|a l IH]; cbn; [reflexivity|].
  f_equal. rewrite <- seq_shift, map_map. exact IH.
Qed.

Lemma sum_list_ext {A} (f g : A -> R) (l : list A) :
  (forall a, In a l -> f a = g a) ->
  sum_list (map f l) = sum_list (map g l).
Proof.
  intros H. f_equal. now apply map_ext_in.
Qed.

Lemma sum_list_nonneg (l : list R) :
  Forall (fun a => 0 <= a) l -> 0 <= sum_list l.
Proof.
  induction 1; cbn; lra.
Qed.

(** ** Broadcasting *)

Lemma bcast_dim_same (n : nat) : bcast_dim n n = Ok n.
Proof. unfold bcast_dim. now rewrite Nat.eqb_refl. Qed.

Lemma bcast_dim_one_r (n : nat) : bcast_dim n 1 = Ok n.
Proof.
  unfold bcast_dim. destruct (Nat.eqb_spec n 1); [reflexivity|].
  reflexivity.
Qed.

Lemma bcast_same_length {A B C} da db (f : A -> B -> C) a b :
  length a = length b -> bcast da db f a b = zip_with f a b.
Proof.
  intros H. unfold bcast. now rewrite H, Nat.eqb_refl.
Qed.

Lemma bcast_one_r {A B C} da db (f : A -> B -> C) a (y : B) :
  bcast da db f a [y] = map (fun x => f x y) a.
Proof.
  unfold bcast. cbn [length hd].
  destruct (Nat.eqb_spec (length a) 1) as [H|H]; [|reflexivity].
  destruct a as [|x [|x' a]]; try discriminate. reflexivity.
Qed.

Lemma slice_table_0 d : tf_slice_col (table d) 0 = Ok (map fst d).
Proof.
  unfold tf_slice_col, table. cbn [ncols rows Nat.ltb Nat.leb].
  now rewrite map_map.
Qed.

Lemma slice_table_1 d : tf_slice_col (table d) 1 = Ok (map snd d).
Proof.
  unfold tf_slice_col, table. cbn [ncols rows Nat.ltb Nat.leb].
  now rewrite map_map.
Qed.

Lemma mul_table_self d :
  tf_mul (table d) (table d)
  = Ok (Mat 2 (map (fun p => [fst p * fst p; snd p * snd p]) d)).
Proof.
  unfold tf_mul, mat_binop, table, nrows. cbn [ncols rows].
  rewrite !bcast_dim_same.
  rewrite bcast_same_length by reflexivity.
  now rewrite zip_with_map_same.
Qed.


Lemma matmul_col_row {A B} (g : A -> R) (f : B -> R) (d : list A)
    (zp : list B) :
  tf_matmul (Mat 1 (map (fun a => [a]) (map g d)))
            (Mat (length (map f zp)) [map f zp])
  = Ok (Mat (length zp) (map (fun q => map (fun p => g q * f p + 0) zp) d)).
Proof.
  unfold tf_matmul, nrows. cbn [ncols rows length Nat.eqb].
  rewrite length_map, !map_map. do 2 f_equal. apply map_ext. intros q.
  cbn [map].
  rewrite <- (length_map f zp).
  rewrite (map_seq_nth (fun wj => dot [g q] [wj]) 0 (map f zp)).
  rewrite map_map. apply map_ext. intros p. reflexivity.
Qed.

Lemma add_mv_rows {A B} (G : A -> B -> R) (h : B -> R) (d : list A)
    (zp : list B) :
  tf_add_mv (Mat (length zp) (map (fun q => map (G q) zp) d)) (map h zp)
  = Ok (Mat (length zp) (map (fun q => map (fun p => G q p + h p) zp) d)).
Proof.
  unfold tf_add_mv, mat_binop, as_row, nrows. cbn [ncols rows length].
  rewrite bcast_dim_one_r, length_map, bcast_dim_same.
  rewrite bcast_one_r, map_map. do 2 f_equal. apply map_ext. intros q.
  rewrite bcast_same_length by now rewrite !length_map.
  apply zip_with_map_same.
Qed.

Lemma sub_col_rows {A B} (F : A -> B -> R) (g : A -> R) (d : list A)
    (zp : list B) :
  tf_sub (Mat (length zp) (map (fun q => map (F q) zp) d))
         (Mat 1 (map (fun q => [g q]) d))
  = Ok (Mat (length zp) (map (fun q => map (fun p => F q p - g q) zp) d)).
Proof.
  unfold tf_sub, mat_binop, nrows. cbn [ncols rows].
  rewrite !length_map, bcast_dim_same, bcast_dim_one_r.
  rewrite bcast_same_length by now rewrite !length_map.
  rewrite zip_with_map_same. do 2 f_equal. apply map_ext. intros q.
  rewrite bcast_one_r. now rewrite map_map.
Qed.

Lemma reduce_sum_0_rows {A B} (F : A -> B -> R) (d : list A) (zp : list B) :
  tf_reduce_sum (Mat (length zp) (map (fun q => map (F q) zp) d)) 0
  = Ok (map (fun p => sum_list (map (fun q => F q p) d)) zp).
Proof.
  cbn [tf_reduce_sum ncols rows]. f_equal.
  destruct zp as [|p0 zp']; [reflexivity|].
  set (zp := p0 :: zp').
  rewrite <- (map_seq_nth (fun p => sum_list (map (fun q => F q p) d)) p0 zp).
  apply map_ext_in. intros j Hj. apply in_seq in Hj.
  rewrite map_map. f_equal. apply map_ext. intros q.
  rewrite (nth_indep _ 0 (F q p0)) by (rewrite length_map; lia).
  apply (map_nth (F q)).
Qed.

Lemma add_vv_maps {A} (f g : A -> R) (l : list A) :
  tf_add_vv (map f l) (map g l) = Ok (map (fun a => f a + g a) l).
Proof.
  unfold tf_add_vv, vec_binop. rewrite !length_map, bcast_dim_same.
  rewrite bcast_same_length by now rewrite !length_map.
  now rewrite zip_with_map_same.
Qed.

Lemma log_prob_table self d zp :
  log_prob (table d) (table zp) self
  = (Ok (map (log_prob_entry self (table d)) (rows (table zp))), self).
Proof.
  unfold log_prob, bind, lift, gets.
  rewrite !slice_table_0, !slice_table_1, mul_table_self.
  change (tf_reduce_sum ?t 1) with (Ok (map sum_list (rows t))).
  change (tf_expand_dims ?v 1) with (Ok (Mat 1 (map (fun a => [a]) v))).
  change (tf_expand_dims ?v 0) with (Ok (Mat (length v) [v])).
  cbv beta iota. cbn [rows].
  rewrite matmul_col_row.
  rewrite (add_mv_rows (fun q p => snd q * fst p + 0) snd d zp).
  rewrite map_map.
  rewrite (sub_col_rows (fun q p => snd q * fst p + 0 + snd p) fst d zp).
  unfold tf_pow. cbn [ncols rows]. rewrite map_map.
  erewrite (map_ext _ _ (fun q => map_map _ _ _)).
  rewrite (reduce_sum_0_rows
             (fun q p => (snd q * fst p + 0 + snd p - fst q) ^ 2) d zp).
  unfold vec_div, vec_neg, vec_scale. rewrite !map_map.
  rewrite add_vv_maps.
  do 2 f_equal. unfold table at 2. cbn [rows]. rewrite map_map.
  apply map_ext. intros p.
  unfold log_prob_entry, table. cbn [rows nth map lik_variance prior_variance].
  rewrite map_map. cbn [nth fst snd].
  do 3 f_equal. apply sum_list_ext. intros q _. ring.
Qed.

Lemma has_shape_table (t : matrix) (n : nat) :
  has_shape t n 2 ->
  t = table (map (fun row => (nth 0 row 0, nth 1 row 0)) (rows t)).
Proof.
  destruct t as [c l]. unfold has_shape, table. cbn [ncols rows].
  intros (_ & -> & Hrows). f_equal. rewrite map_map. cbn [fst snd].
  induction Hrows as [|row l Hrow _ IH]; [reflexivity|].
  cbn [map]. rewrite <- IH. f_equal.
  destruct row as [|a [|b [|? ?]]]; try discriminate. reflexivity.
Qed.

Lemma has_shape_of_table (d : list (R * R)) :
  has_shape (table d) (length d) 2.
Proof.
  unfold has_shape, table, nrows. cbn [ncols rows].
  rewrite length_map. repeat split.
  apply Forall_forall. intros row Hin. apply in_map_iff in Hin.
  destruct Hin as (p & <- & _). reflexivity.
Qed.

(** The closed form of [log_prob] on well-shaped arguments. *)
Lemma log_prob_closed_form (self : LinearModel) (xs zs : matrix) (n S : nat) :
  has_shape xs n 2 -> has_shape zs S 2 ->
  log_prob xs zs self = (Ok (map (log_prob_entry self xs) (rows zs)), self).
Proof.
  intros Hx Hz.
  rewrite (has_shape_table xs n Hx) at 1.
  rewrite (has_shape_table zs S Hz) at 1.
  rewrite log_prob_table.
  rewrite <- (has_shape_table xs n Hx), <- (has_shape_table zs S Hz).
  reflexivity.
Qed.

Lemma log_prob_entry_nonpos (self : LinearModel) (xs : matrix) (z : list R) :
  0 < lik_variance self -> 0 < prior_variance self ->
  log_prob_entry self xs z <= 0.
Proof.
  intros Hl Hp. unfold log_prob_entry.
  set (ssr := sum_list (map _ (rows xs))).
  set (zz := sum_list (map _ z)).
  assert (Hssr : 0 <= ssr).
  { apply sum_list_nonneg, Forall_forall. intros a Ha.
    apply in_map_iff in Ha. destruct Ha as (row & <- & _).
    apply pow2_ge_0. }
  assert (Hzz : 0 <= zz).
  { apply sum_list_nonneg, Forall_forall. intros a Ha.
    apply in_map_iff in Ha. destruct Ha as (zj & <- & _). nra. }
  assert (H1 : 0 <= ssr / lik_variance self).
  { apply Rmult_le_pos; [exact Hssr|]. left. now apply Rinv_0_lt_compat. }
  assert (H2 : 0 <= prior_variance self * zz) by nra.
  unfold Rdiv in *. lra.
Qed.

(** C3: a model built by [__init__] has [num_vars = 2], and on a data table
    of shape [n x 2] and samples of shape [S x 2] the entry of [log_prob] for
    a sample [z] is computed from the residuals [x * z[0] + z[1] - y]:
    [z[0]] is the slope and [z[1]] the intercept, for every row of [zs]. *)
Theorem log_prob_slope_intercept (lik prior : R) (xs zs : matrix) (n S : nat) :
  has_shape xs n 2 -> has_shape zs S 2 ->
  let self := LinearModel_init lik prior in
  num_vars self = 2%Z /\
  log_prob xs zs self
  = (Ok (map (fun z =>
               - sum_list (map (fun row =>
                                  (nth 1 row 0 * nth 0 z 0 + nth 1 z 0
                                   - nth 0 row 0) ^ 2)
                               (rows xs))
                 / lik
               + - prior * sum_list (map (fun zj => zj * zj) z))
            (rows zs)),
     self).
Proof.
  intros Hx Hz self. split; [reflexivity|].
  rewrite (log_prob_closed_form self xs zs n S Hx Hz). reflexivity.
Qed.

Lemma log_prob_slope_intercept_witness :
  log_prob (table [(1, 2)]) (table [(3, 4)]) (LinearModel_init 1 1)
  = (Ok [- 106], LinearModel_init 1 1).
Proof.
  destruct (log_prob_slope_intercept 1 1 (table [(1, 2)]) (table [(3, 4)]) 1 1
              (has_shape_of_table [(1, 2)]) (has_shape_of_table [(3, 4)]))
    as [_ H].
  rewrite H. cbn [table rows map nth sum_list fst snd]. do 2 f_equal. apply (f_equal (fun a => [a])). field.
Defined.

(** C4: on arguments of shape [n x 2] and [S x 2], [log_prob] raises no
    exception, returns one value per sample and leaves the fields of the
    model as they were. *)
Theorem log_prob_total_and_pure (self : LinearModel) (xs zs : matrix)
    (n S : nat) :
  has_shape xs n 2 -> has_shape zs S 2 ->
  exists v : vector,
    log_prob xs zs self = (Ok v, self) /\ length v = S.
Proof.
  intros Hx Hz. exists (map (log_prob_entry self xs) (rows zs)). split.
  - exact (log_prob_closed_form self xs zs n S Hx Hz).
  - rewrite length_map. apply Hz.
Qed.

Lemma log_prob_total_and_pure_witness :
  exists v : vector,
    log_prob (table [(1, 2); (0, 1)]) (table [(3, 4)]) (LinearModel_init 1 1)
    = (Ok v, LinearModel_init 1 1) /\ length v = 1%nat.
Proof.
  exact (log_prob_total_and_pure (LinearModel_init 1 1)
           (table [(1, 2); (0, 1)]) (table [(3, 4)]) 2 1
           (has_shape_of_table [(1, 2); (0, 1)])
           (has_shape_of_table [(3, 4)])).
Defined.

(** C10: with positive variances, every entry of the vector returned by
    [log_prob] is at most zero. *)
Theorem log_prob_nonpos (self : LinearModel) (xs zs : matrix) (n S : nat) :
  0 < lik_variance self -> 0 < prior_variance self ->
  has_shape xs n 2 -> has_shape zs S 2 ->
  exists v : vector,
    log_prob xs zs self = (Ok v, self) /\ Forall (fun a => a <= 0) v.
Proof.
  intros Hl Hp Hx Hz. exists (map (log_prob_entry self xs) (rows zs)). split.
  - exact (log_prob_closed_form self xs zs n S Hx Hz).
  - apply Forall_forall. intros a Ha. apply in_map_iff in Ha.
    destruct Ha as (z & <- & _). now apply log_prob_entry_nonpos.
Qed.

Lemma log_prob_nonpos_witness :
  exists v : vector,
    log_prob (table [(1, 2)]) (table [(3, 4); (0, 0)])
      (LinearModel_init default_variance default_variance)
    = (Ok v, LinearModel_init default_variance default_variance)
    /\ Forall (fun a => a <= 0) v.
Proof.
  apply (log_prob_nonpos (LinearModel_init default_variance default_variance)
           (table [(1, 2)]) (table [(3, 4); (0, 0)]) 1 2).
  - unfold default_variance. cbn. lra.
  - unfold default_variance. cbn. lra.
  - exact (has_shape_of_table [(1, 2)]).
  - exact (has_shape_of_table [(3, 4); (0, 0)]).
Defined.

(** The Gaussian log-joint in closed form, on a table of [n] data points and
    a sample [(w, b)]. *)
Lemma gaussian_log_joint_table (self : LinearModel) (d : list (R * R))
    (w b : R) :
  lik_variance self <> 0 -> prior_variance self <> 0 ->
  gaussian_log_joint self (table d) [w; b]
  = - INR (length d) * ln (2 * PI * lik_variance self) / 2
    - sum_list (map (fun p => (snd p * w + b - fst p) ^ 2) d)
      / (2 * lik_variance self)
    - ln (2 * PI * prior_variance self)
    - (w * w + b * b) / (2 * prior_variance self).
Proof.
  intros Hl Hp. unfold gaussian_log_joint, norm_logpdf, table.
  cbn [rows nth map sum_list]. rewrite map_map. cbn [nth fst snd].
  set (cl := ln (2 * PI * lik_variance self)).
  set (cp := ln (2 * PI * prior_variance self)).
  assert (Hdata :
    sum_list (map (fun p : R * R =>
                     - cl / 2 - (fst p - (snd p * w + b)) ^ 2
                                / (2 * lik_variance self)) d)
    = - INR (length d) * cl / 2
      - sum_list (map (fun p => (snd p * w + b - fst p) ^ 2) d)
        / (2 * lik_variance self)).
  { induction d as [|p d IH].
    - cbn [map sum_list length INR]. field. exact Hl.
    - cbn [map sum_list]. rewrite IH.
      change (length (p :: d)) with (S (length d)). rewrite S_INR.
      field. exact Hl. }
  rewrite Hdata. field. split; assumption.
Qed.

(** How far [log_prob] is from the Gaussian log-joint: a factor 2, a term
    that does not depend on the sample, and a multiple of the squared norm of
    the sample that vanishes only when [prior_variance] squares to 1. *)
Lemma log_prob_entry_gaussian_gap (self : LinearModel) (d : list (R * R))
    (w b : R) :
  lik_variance self <> 0 -> prior_variance self <> 0 ->
  log_prob_entry self (table d) [w; b]
  = 2 * gaussian_log_joint self (table d) [w; b]
    + (INR (length d) * ln (2 * PI * lik_variance self)
       + 2 * ln (2 * PI * prior_variance self))
    + (/ prior_variance self - prior_variance self) * (w * w + b * b).
Proof.
  intros Hl Hp. rewrite gaussian_log_joint_table by assumption.
  unfold log_prob_entry, table. cbn [rows nth map sum_list].
  rewrite map_map. cbn [nth fst snd].
  field. split; assumption.
Qed.

(** C1: at the default variances, on the one data point [(y, x) = (0, 0)] and
    the samples [(0, 0)] and [(1, 0)], [log_prob] returns [0] and [-0.01];
    the Gaussian log-joint that the claim and the class documentation
    describe drops by [50] from the first sample to the second, so it is not
    what [log_prob] returns. *)
Theorem log_prob_differs_from_gaussian_log_joint :
  let self := LinearModel_init default_variance default_variance in
  let xs := table [(0, 0)] in
  let zs := table [(0, 0); (1, 0)] in
  log_prob xs zs self = (Ok [0; - (1 / 100)], self) /\
  gaussian_log_joint self xs [1; 0] = gaussian_log_joint self xs [0; 0] - 50 /\
  map (gaussian_log_joint self xs) (rows zs) <> [0; - (1 / 100)].
Proof.
  intros self xs zs.
  assert (Hgauss : gaussian_log_joint self xs [1; 0]
                   = gaussian_log_joint self xs [0; 0] - 50).
  { unfold xs, gaussian_log_joint, norm_logpdf, self, default_variance.
    cbn [table rows map nth sum_list fst snd LinearModel_init
         lik_variance prior_variance].
    field. }
  split; [|split; [exact Hgauss|]].
  - unfold xs, zs. rewrite log_prob_table.
    unfold log_prob_entry, self, default_variance.
    cbn [table rows map nth sum_list fst snd LinearModel_init
         lik_variance prior_variance].
    do 2 f_equal.
    replace (- ((0 * 0 + 0 - 0) ^ 2 + 0) / (1 / 100)
             + - (1 / 100) * (0 * 0 + (0 * 0 + 0))) with 0 by field.
    replace (- ((0 * 1 + 0 - 0) ^ 2 + 0) / (1 / 100)
             + - (1 / 100) * (1 * 1 + (0 * 0 + 0))) with (- (1 / 100))
      by field.
    reflexivity.
  - unfold zs. cbn [table rows map fst snd].
    intros H. injection H as H0 H1. lra.
Qed.

(** ** NumPy primitives *)

Lemma np_linspace_ok (a b : R) (num : Z) :
  (0 <= num)%Z ->
  exists v, np_linspace a b num = Ok v /\ length v = Z.to_nat num.
Proof.
  intros H. unfold np_linspace.
  destruct (Z.ltb_spec num 0) as [Hneg|_]; [lia|].
  eexists. split; [reflexivity|]. now rewrite length_map, length_seq.
Qed.

Lemma np_linspace_negative (a b : R) (num : Z) :
  (num < 0)%Z -> exists e, np_linspace a b num = Raise e.
Proof.
  intros H. unfold np_linspace.
  destruct (Z.ltb_spec num 0) as [_|Hpos]; [|lia]. now eexists.
Qed.

Lemma chunks_one (v : list R) :
  chunks 1 v (length v) = map (fun a => [a]) v.
Proof.
  induction v as [|a v IH]; [reflexivity|].
  cbn [length chunks firstn skipn map]. now rewrite IH.
Qed.

Lemma np_reshape_column (v : vector) (n : Z) :
  Z.of_nat (length v) = n ->
  np_reshape v (n, 1%Z) = Ok (Mat 1 (map (fun a => [a]) v)).
Proof.
  intros H. unfold np_reshape.
  assert (Hn : (0 <= n)%Z) by lia.
  destruct (Z.eqb_spec n (-1)) as [E|_]; [lia|].
  destruct (Z.ltb_spec n (-1)) as [E|_]; [lia|].
  cbn [andb orb Z.eqb Z.ltb Z.compare Pos.compare Pos.compare_cont].
  rewrite Z.mul_1_r. rewrite <- H at 1. rewrite Z.eqb_refl.
  rewrite <- H, Nat2Z.id. cbn [Z.to_nat Pos.to_nat Pos.iter_op].
  now rewrite chunks_one.
Qed.

Lemma np_reshape_column_mismatch (v : vector) (n : Z) :
  (0 <= n)%Z -> Z.of_nat (length v) <> n ->
  exists e, np_reshape v (n, 1%Z) = Raise e.
Proof.
  intros Hn H. unfold np_reshape.
  destruct (Z.eqb_spec n (-1)) as [E|_]; [lia|].
  destruct (Z.ltb_spec n (-1)) as [E|_]; [lia|].
  cbn [andb orb Z.eqb Z.ltb Z.compare Pos.compare Pos.compare_cont].
  rewrite Z.mul_1_r.
  destruct (Z.eqb_spec (Z.of_nat (length v)) n) as [E|_]; [contradiction|].
  now eexists.
Qed.

Lemma zip_with_columns (a b : list R) :
  zip_with (@app R) (map (fun y => [y]) a) (map (fun x => [x]) b)
  = zip_with (fun y x => [y; x]) a b.
Proof.
  revert b; induction a as [|y a IH]; intros [|x b]; cbn; try reflexivity.
  now rewrite IH.
Qed.

Lemma map_zip_with {A B C D} (g : C -> D) (f : A -> B -> C) a b :
  map g (zip_with f a b) = zip_with (fun x y => g (f x y)) a b.
Proof.
  revert b; induction a as [|x a IH]; intros [|y b]; cbn; try reflexivity.
  now rewrite IH.
Qed.

Lemma zip_with_rows_shape {A B} (f : A -> B -> list R) (c : nat) a b :
  (forall x y, length (f x y) = c) ->
  Forall (fun row => length row = c) (zip_with f a b).
Proof.
  intros H. revert b; induction a as [|x a IH]; intros [|y b]; cbn;
    constructor; auto.
Qed.

Lemma zip_with_fst {A B} (g : A -> B) (a b : list A) :
  length a = length b ->
  zip_with (fun y _ => g y) a b = map g a.
Proof.
  revert b; induction a as [|y a IH]; intros [|x b] H; cbn in *;
    try discriminate; [reflexivity|]. now rewrite IH by lia.
Qed.

Lemma zip_with_snd {A B} (g : A -> B) (a b : list A) :
  length a = length b ->
  zip_with (fun _ x => g x) a b = map g b.
Proof.
  revert b; induction a as [|y a IH]; intros [|x b] H; cbn in *;
    try discriminate; [reflexivity|]. now rewrite IH by lia.
Qed.

Lemma np_add_same_length (a b : vector) :
  length a = length b -> np_add a b = Ok (zip_with Rplus a b).
Proof.
  intros H. unfold np_add, vec_binop.
  rewrite H, bcast_dim_same. now rewrite bcast_same_length.
Qed.

Lemma np_add_mismatch (a b : vector) :
  length a <> length b -> length a <> 1%nat -> length b <> 1%nat ->
  exists e, np_add a b = Raise e.
Proof.
  intros H Ha Hb. unfold np_add, vec_binop, bcast_dim.
  destruct (Nat.eqb_spec (length a) (length b)); [contradiction|].
  destruct (Nat.eqb_spec (length a) 1); [contradiction|].
  destruct (Nat.eqb_spec (length b) 1); [contradiction|].
  now eexists.
Qed.

Lemma np_add_empty_one (b : vector) :
  length b = 1%nat -> np_add [] b = Ok [].
Proof.
  intros H. unfold np_add, vec_binop, bcast_dim, bcast. cbn [length].
  rewrite H. reflexivity.
Qed.

(** ** The script *)

Section FrameworkProperties.

Variable rng : Type.
Variable seeded : Z -> rng.
Variable norm_rvs : R -> R -> Z -> rng -> result vector * rng.
Variable float32 : R -> R.

(** When [norm.rvs] returns, it returns [size] draws. *)
Hypothesis norm_rvs_size :
  forall loc scale size g v g',
    norm_rvs loc scale size g = (Ok v, g') -> Z.of_nat (length v) = size.

Local Abbreviation build := (build_toy_dataset seeded norm_rvs float32).
Local Abbreviation script := (main seeded norm_rvs float32).

Lemma build_toy_dataset_even (n : Z) (noise_std : R) (w : world rng)
    (noise : vector) (g' : rng) :
  Z.even n = true -> (0 < n)%Z ->
  norm_rvs 0 noise_std n (seeded 0) = (Ok noise, g') ->
  exists lo hi,
    np_linspace 0 2 (n / 2) = Ok lo /\
    np_linspace 6 8 (n / 2) = Ok hi /\
    Z.of_nat (length (lo ++ hi)) = n /\
    build n noise_std w
    = (Ok {| data_table := cast_float32 float32 (toy_table (lo ++ hi) noise) |},
       {| np_random := g';
          trace := trace w ++ [EvSetSeed 0; EvRvs 0 noise_std n;
                               EvConstant (toy_table (lo ++ hi) noise);
                               EvData (cast_float32 float32
                                         (toy_table (lo ++ hi) noise))] |}).
Proof.
  intros Heven Hpos Hrvs.
  apply Z.even_spec in Heven. destruct Heven as [k ->].
  replace (2 * k / 2)%Z with k by (rewrite Z.mul_comm, Z.div_mul; lia).
  destruct (np_linspace_ok 0 2 k) as (lo & Hlo & Llo); [lia|].
  destruct (np_linspace_ok 6 8 k) as (hi & Hhi & Lhi); [lia|].
  exists lo, hi. split; [exact Hlo|]. split; [exact Hhi|].
  assert (Lx : Z.of_nat (length (lo ++ hi)) = (2 * k)%Z).
  { rewrite length_app, Llo, Lhi. lia. }
  split; [exact Lx|].
  pose proof (norm_rvs_size _ _ _ _ _ _ Hrvs) as Ln.
  unfold build_toy_dataset, bind, lift, ed_set_seed, modify, stats_norm_rvs.
  replace (2 * k / 2)%Z with k by (rewrite Z.mul_comm, Z.div_mul; lia).
  rewrite Hlo, Hhi. cbn [np_concatenate concat np_random trace].
  rewrite app_nil_r, Hrvs.
  rewrite np_add_same_length
    by (unfold vec_scale; rewrite length_map; lia).
  rewrite !np_reshape_column.
  2:{ rewrite zip_with_length; unfold vec_scale; rewrite length_map; lia. }
  2:{ unfold vec_div, vec_sub_scalar. rewrite !length_map. exact Lx. }
  unfold np_concatenate_axis1, nrows. cbn [ncols rows].
  rewrite !length_map, zip_with_length
    by (unfold vec_scale; rewrite length_map; lia).
  unfold vec_scale at 1, vec_div at 1, vec_sub_scalar at 1.
  rewrite !length_map, Nat.eqb_refl, zip_with_columns.
  unfold tf_constant_float32, ed_Data, emit, modify, bind, ret.
  cbn [np_random trace Nat.add]. rewrite <- !app_assoc. reflexivity.
Qed.

Lemma main_run (w : world rng) (noise : vector) (g' : rng) :
  norm_rvs 0 (1 / 10) 40 (seeded 0) = (Ok noise, g') ->
  exists lo hi,
    np_linspace 0 2 20 = Ok lo /\
    np_linspace 6 8 20 = Ok hi /\
    script w
    = (Ok tt,
       {| np_random := g';
          trace := trace w ++ main_events float32 (lo ++ hi) noise |}).
Proof.
  intros Hrvs.
  set (w1 := {| np_random := seeded 42;
                trace := trace w
                         ++ firstn 5 (main_events float32 [] []) |}).
  destruct (build_toy_dataset_even 40 (1 / 10) w1 noise g'
              eq_refl eq_refl Hrvs) as (lo & hi & Hlo & Hhi & _ & Hb).
  exists lo, hi. split; [exact Hlo|]. split; [exact Hhi|].
  unfold main, ed_set_seed, LinearModel_new, Variational_new,
    Normal_new, Variational_add, MFVI_new, MFVI_run, emit.
  unfold bind, modify, ret.
  cbn [np_random trace num_vars LinearModel_init layers app].
  match goal with
  | |- context [build_toy_dataset _ _ _ _ _ ?w0] =>
      replace w0 with w1
        by (unfold w1; cbn [firstn main_events];
            now rewrite <- !app_assoc)
  end.
  rewrite Hb. unfold w1. cbn [np_random trace firstn main_events].
  rewrite <- !app_assoc. reflexivity.
Qed.

(** C8: the dataset [build_toy_dataset] returns, and the generator state
    it leaves, depend on its arguments only and not on the world it is
    called in: the seed is reset to 0 before the noise is drawn. *)
Theorem build_toy_dataset_deterministic (n : Z) (noise_std : R)
    (w1 w2 : world rng) :
  fst (build n noise_std w1) = fst (build n noise_std w2) /\
  np_random (snd (build n noise_std w1))
  = np_random (snd (build n noise_std w2)).
Proof.
  unfold build_toy_dataset, ed_set_seed, stats_norm_rvs,
    tf_constant_float32, ed_Data, emit.
  unfold bind, lift, modify, ret. cbn [np_random trace].
  destruct (np_linspace 0 2 (n / 2)) as [lo|e]; [|now split].
  destruct (np_linspace 6 8 (n / 2)) as [hi|e]; [|now split].
  destruct (np_concatenate [lo; hi]) as [x|e]; [|now split].
  destruct (norm_rvs 0 noise_std n (seeded 0)) as [[noise|e] g];
    [|now split].
  destruct (np_add (vec_scale (75 / 1000) x) noise) as [y|e]; [|now split].
  destruct (np_reshape (vec_div (vec_sub_scalar x 4) 4) (n, 1%Z))
    as [xc|e]; [|now split].
  destruct (np_reshape y (n, 1%Z)) as [yc|e]; [|now split].
  destruct (np_concatenate_axis1 yc xc) as [data|e]; now split.
Qed.

(** C2: for an even positive [n_data], once [norm.rvs] has returned its
    draw, [build_toy_dataset] returns a table of shape [n_data x 2] whose
    first column is the output [y = 0.075 * x + noise] and whose second
    column is the input [(x - 4) / 4], both cast to [tf.float32]. *)
Theorem build_toy_dataset_table (n : Z) (noise_std : R) (w : world rng)
    (noise : vector) (g' : rng) :
  Z.even n = true -> (0 < n)%Z ->
  norm_rvs 0 noise_std n (seeded 0) = (Ok noise, g') ->
  exists (lo hi : vector) (d : Data),
    np_linspace 0 2 (n / 2) = Ok lo /\
    np_linspace 6 8 (n / 2) = Ok hi /\
    fst (build n noise_std w) = Ok d /\
    has_shape (data_table d) (Z.to_nat n) 2 /\
    tf_slice_col (data_table d) 0
    = Ok (map float32
            (zip_with Rplus (vec_scale (75 / 1000) (lo ++ hi)) noise)) /\
    tf_slice_col (data_table d) 1
    = Ok (map float32 (vec_div (vec_sub_scalar (lo ++ hi) 4) 4)).
Proof.
  intros Heven Hpos Hrvs.
  destruct (build_toy_dataset_even n noise_std w noise g' Heven Hpos Hrvs)
    as (lo & hi & Hlo & Hhi & Lx & Hb).
  pose proof (norm_rvs_size _ _ _ _ _ _ Hrvs) as Ln.
  exists lo, hi. eexists. split; [exact Hlo|]. split; [exact Hhi|].
  rewrite Hb. split; [reflexivity|].
  cbn [fst data_table]. unfold cast_float32, toy_table.
  cbn [ncols rows]. rewrite map_zip_with. cbn [map].
  set (y := zip_with Rplus (vec_scale (75 / 1000) (lo ++ hi)) noise).
  set (x := vec_div (vec_sub_scalar (lo ++ hi) 4) 4).
  assert (Ly : length y = Z.to_nat n).
  { unfold y. rewrite zip_with_length; unfold vec_scale;
      rewrite length_map; lia. }
  assert (Lx' : length x = Z.to_nat n).
  { unfold x, vec_div, vec_sub_scalar. rewrite !length_map. lia. }
  split; [|split].
  - unfold has_shape, nrows. cbn [ncols rows].
    rewrite zip_with_length by lia. repeat split; [exact Ly|].
    now apply zip_with_rows_shape.
  - unfold tf_slice_col. cbn [ncols rows Nat.ltb Nat.leb]. f_equal.
    rewrite map_zip_with. cbn [nth].
    apply zip_with_fst. now rewrite Ly, Lx'.
  - unfold tf_slice_col. cbn [ncols rows Nat.ltb Nat.leb]. f_equal.
    rewrite map_zip_with. cbn [nth].
    apply zip_with_snd. now rewrite Ly, Lx'.
Qed.

(** C9: for an odd [n_data], [build_toy_dataset] raises an exception
    instead of returning a dataset; when [n_data] is positive the two
    linspaces hold [n_data - 1] values together, which no reshape to
    [(n_data, 1)] accepts. *)
Theorem build_toy_dataset_odd_fails (n : Z) (noise_std : R)
    (w : world rng) :
  Z.odd n = true ->
  (exists e, fst (build n noise_std w) = Raise e) /\
  ((0 < n)%Z ->
   exists lo hi,
     np_linspace 0 2 (n / 2) = Ok lo /\
     np_linspace 6 8 (n / 2) = Ok hi /\
     Z.of_nat (length (lo ++ hi)) = (n - 1)%Z /\
     forall v : vector,
       length v = length (lo ++ hi) ->
       exists e, np_reshape v (n, 1%Z) = Raise e).
Proof.
  intros Hodd. apply Z.odd_spec in Hodd. destruct Hodd as [k ->].
  assert (Hdiv : ((2 * k + 1) / 2 = k)%Z).
  { rewrite Z.mul_comm, Z.div_add_l by lia.
    change (1 / 2)%Z with 0%Z. lia. }
  rewrite Hdiv. split.
  - unfold build_toy_dataset, ed_set_seed, stats_norm_rvs.
    unfold bind, lift, modify. cbn [np_random trace]. rewrite Hdiv.
    destruct (Z.lt_ge_cases k 0) as [Hneg|Hk].
    + destruct (np_linspace_negative 0 2 k Hneg) as (e & ->).
      now exists e.
    + destruct (np_linspace_ok 0 2 k Hk) as (lo & -> & Llo).
      destruct (np_linspace_ok 6 8 k Hk) as (hi & -> & Lhi).
      cbn [np_concatenate concat]. rewrite app_nil_r.
      assert (Lx : length (lo ++ hi) = Z.to_nat (2 * k)).
      { rewrite length_app, Llo, Lhi. lia. }
      destruct (norm_rvs 0 noise_std (2 * k + 1) (seeded 0))
        as [[noise|e] g] eqn:Hrvs; [|now exists e].
      pose proof (norm_rvs_size _ _ _ _ _ _ Hrvs) as Ln.
      destruct (Z.eq_dec k 0) as [->|Hk0].
      * destruct lo; [|discriminate]. destruct hi; [|discriminate].
        cbn [app vec_scale vec_sub_scalar vec_div map].
        rewrite np_add_empty_one by (cbn in Ln; lia).
        assert (Hshape : Z.of_nat (@length R []) <> (2 * 0 + 1)%Z)
          by (cbn; lia).
        destruct (np_reshape_column_mismatch [] (2 * 0 + 1)
                    ltac:(lia) Hshape) as (e & ->).
        now exists e.
      * assert (La : length (vec_scale (75 / 1000) (lo ++ hi))
                     = Z.to_nat (2 * k))
          by (unfold vec_scale; now rewrite length_map).
        destruct (np_add_mismatch (vec_scale (75 / 1000) (lo ++ hi)) noise
                    ltac:(lia) ltac:(lia) ltac:(lia)) as (e & ->).
        now exists e.
  - intros Hpos.
    destruct (np_linspace_ok 0 2 k) as (lo & Hlo & Llo); [lia|].
    destruct (np_linspace_ok 6 8 k) as (hi & Hhi & Lhi); [lia|].
    exists lo, hi. split; [exact Hlo|]. split; [exact Hhi|].
    assert (Lx : Z.of_nat (length (lo ++ hi)) = (2 * k + 1 - 1)%Z).
    { rewrite length_app, Llo, Lhi. lia. }
    split; [exact Lx|]. intros v Hv.
    apply np_reshape_column_mismatch; lia.
Qed.

(** C5 (as the script runs): the script instantiates the model, then the
    variational family, then constructs the toy data, then runs the
    inference. *)
Theorem main_order (w : world rng) (noise : vector) (g' : rng) :
  norm_rvs 0 (1 / 10) 40 (seeded 0) = (Ok noise, g') ->
  fst (script w) = Ok tt /\
  exists l,
    trace (snd (script w)) = trace w ++ l /\
    stages l = [InstantiateModel; InstantiateVariational; ConstructData;
                RunInference].
Proof.
  intros Hrvs.
  destruct (main_run w noise g' Hrvs) as (lo & hi & _ & _ & ->).
  split; [reflexivity|]. eexists. split; reflexivity.
Qed.

(** C6: the script calls [inference.run] once, with exactly the keyword
    arguments [n_iter=250], [n_minibatch=5] and [n_print=10]. *)
Theorem main_run_options (w : world rng) (noise : vector) (g' : rng) :
  norm_rvs 0 (1 / 10) 40 (seeded 0) = (Ok noise, g') ->
  fst (script w) = Ok tt /\
  exists l,
    trace (snd (script w)) = trace w ++ l /\
    run_calls l = [[("n_iter"%string, 250%Z); ("n_minibatch"%string, 5%Z);
                    ("n_print"%string, 10%Z)]].
Proof.
  intros Hrvs.
  destruct (main_run w noise g' Hrvs) as (lo & hi & _ & _ & ->).
  split; [reflexivity|]. eexists. split; reflexivity.
Qed.

(** The seeds the script sets: 42 at the top level, then 0 inside
    [build_toy_dataset]. *)
Lemma main_seeds (w : world rng) (noise : vector) (g' : rng) :
  norm_rvs 0 (1 / 10) 40 (seeded 0) = (Ok noise, g') ->
  exists l,
    trace (snd (script w)) = trace w ++ l /\ seeds_set l = [42%Z; 0%Z].
Proof.
  intros Hrvs.
  destruct (main_run w noise g' Hrvs) as (lo & hi & _ & _ & ->).
  eexists. split; reflexivity.
Qed.

End FrameworkProperties.

(** ** The script on the small instance of the framework *)

Lemma toy_norm_rvs_size (loc scale : R) (size g : Z) (v : vector) (g' : Z) :
  toy_norm_rvs loc scale size g = (Ok v, g') -> Z.of_nat (length v) = size.
Proof.
  unfold toy_norm_rvs. destruct (Z.ltb_spec size 0) as [H|H]; [discriminate|].
  intros E. injection E as <- _. rewrite repeat_length. lia.
Qed.

Lemma build_toy_dataset_table_witness :
  exists (lo hi : vector) (d : Data),
    np_linspace 0 2 (2 / 2) = Ok lo /\
    np_linspace 6 8 (2 / 2) = Ok hi /\
    fst (build_toy_dataset toy_seeded toy_norm_rvs toy_float32 2 (1 / 10)
           toy_world) = Ok d /\
    has_shape (data_table d) (Z.to_nat 2) 2 /\
    tf_slice_col (data_table d) 0
    = Ok (map toy_float32
            (zip_with Rplus (vec_scale (75 / 1000) (lo ++ hi))
               (repeat 0 (Z.to_nat 2)))) /\
    tf_slice_col (data_table d) 1
    = Ok (map toy_float32 (vec_div (vec_sub_scalar (lo ++ hi) 4) 4)).
Proof.
  exact (build_toy_dataset_table Z toy_seeded toy_norm_rvs toy_float32
           toy_norm_rvs_size 2 (1 / 10) toy_world
           (repeat 0 (Z.to_nat 2)) (0 + 2)%Z eq_refl eq_refl eq_refl).
Defined.

Lemma build_toy_dataset_odd_fails_witness :
  exists e,
    fst (build_toy_dataset toy_seeded toy_norm_rvs toy_float32 41 (1 / 10)
           toy_world) = Raise e.
Proof.
  exact (proj1 (build_toy_dataset_odd_fails Z toy_seeded toy_norm_rvs
                  toy_float32 toy_norm_rvs_size 41 (1 / 10) toy_world
                  eq_refl)).
Defined.

Lemma main_order_witness :
  fst (main toy_seeded toy_norm_rvs toy_float32 toy_world) = Ok tt /\
  exists l,
    trace (snd (main toy_seeded toy_norm_rvs toy_float32 toy_world))
    = trace toy_world ++ l /\
    stages l = [InstantiateModel; InstantiateVariational; ConstructData;
                RunInference].
Proof.
  exact (main_order Z toy_seeded toy_norm_rvs toy_float32 toy_norm_rvs_size
           toy_world (repeat 0 (Z.to_nat 40)) (0 + 40)%Z eq_refl).
Defined.

Lemma main_run_options_witness :
  fst (main toy_seeded toy_norm_rvs toy_float32 toy_world) = Ok tt /\
  exists l,
    trace (snd (main toy_seeded toy_norm_rvs toy_float32 toy_world))
    = trace toy_world ++ l /\
    run_calls l = [[("n_iter"%string, 250%Z); ("n_minibatch"%string, 5%Z);
                    ("n_print"%string, 10%Z)]].
Proof.
  exact (main_run_options Z toy_seeded toy_norm_rvs toy_float32
           toy_norm_rvs_size toy_world (repeat 0 (Z.to_nat 40)) (0 + 40)%Z
           eq_refl).
Defined.

(** C5 (as stated) fails: on the small instance the stages of the run are
    not data, model, variational family, inference. *)
Lemma main_order_data_first_fails :
  ~ (exists l,
       trace (snd (main toy_seeded toy_norm_rvs toy_float32 toy_world))
       = trace toy_world ++ l /\
       stages l = [ConstructData; InstantiateModel; InstantiateVariational;
                   RunInference]).
Proof.
  intros (l & Hl & Hs).
  destruct (main_run Z toy_seeded toy_norm_rvs toy_float32 toy_norm_rvs_size
              toy_world (repeat 0 (Z.to_nat 40)) (0 + 40)%Z eq_refl)
    as (lo & hi & _ & _ & E).
  rewrite E in Hl. cbn [snd trace toy_world app] in Hl. subst l.
  discriminate Hs.
Qed.


(** * Further properties of [log_prob] *)

Lemma zip_with_diag {A B} (f : A -> A -> B) (l : list A) :
  zip_with f l l = map (fun a => f a a) l.
Proof.
  induction l as [|a l IH]; cbn; [reflexivity|]. now rewrite IH.
Qed.

Lemma tf_mul_self (t : matrix) :
  tf_mul t t = Ok (Mat (ncols t) (map (map (fun a => a * a)) (rows t))).
Proof.
  unfold tf_mul, mat_binop. rewrite !bcast_dim_same.
  rewrite bcast_same_length by reflexivity.
  rewrite zip_with_diag. do 2 f_equal. apply map_ext. intros row.
  rewrite bcast_same_length by reflexivity. apply zip_with_diag.
Qed.

(** The closed form needs two columns and nothing more. *)
Lemma log_prob_two_columns (self : LinearModel) (xs zs : matrix) :
  (2 <= ncols xs)%nat -> (2 <= ncols zs)%nat ->
  log_prob xs zs self = (Ok (map (log_prob_entry self xs) (rows zs)), self).
Proof.
  intros Hx Hz. unfold log_prob, bind, lift, gets, tf_slice_col.
  destruct (Nat.ltb_spec 0 (ncols xs)) as [_|H]; [|lia].
  destruct (Nat.ltb_spec 1 (ncols xs)) as [_|H]; [|lia].
  destruct (Nat.ltb_spec 0 (ncols zs)) as [_|H]; [|lia].
  destruct (Nat.ltb_spec 1 (ncols zs)) as [_|H]; [|lia].
  rewrite tf_mul_self.
  change (tf_reduce_sum ?t 1) with (Ok (map sum_list (rows t))).
  change (tf_expand_dims ?v 1) with (Ok (Mat 1 (map (fun a => [a]) v))).
  change (tf_expand_dims ?v 0) with (Ok (Mat (length v) [v])).
  cbv beta iota. cbn [rows].
  rewrite matmul_col_row.
  rewrite (add_mv_rows (fun rx rz => nth 1 rx 0 * nth 0 rz 0 + 0)
             (fun rz => nth 1 rz 0) (rows xs) (rows zs)).
  rewrite map_map.
  rewrite (sub_col_rows
             (fun rx rz => nth 1 rx 0 * nth 0 rz 0 + 0 + nth 1 rz 0)
             (fun rx => nth 0 rx 0) (rows xs) (rows zs)).
  unfold tf_pow. cbn [ncols rows]. rewrite map_map.
  erewrite (map_ext _ _ (fun q => map_map _ _ _)).
  rewrite (reduce_sum_0_rows
             (fun rx rz => (nth 1 rx 0 * nth 0 rz 0 + 0 + nth 1 rz 0
                            - nth 0 rx 0) ^ 2) (rows xs) (rows zs)).
  unfold vec_div, vec_neg, vec_scale. rewrite !map_map.
  rewrite add_vv_maps.
  do 2 f_equal. apply map_ext. intros z. unfold log_prob_entry.
  do 3 f_equal. apply sum_list_ext. intros q _. ring.
Qed.

Lemma log_prob_narrow (self : LinearModel) (xs zs : matrix) :
  (ncols xs < 2)%nat \/ (ncols zs < 2)%nat ->
  exists e, log_prob xs zs self = (Raise e, self).
Proof.
  intros H. unfold log_prob, bind, lift, gets, tf_slice_col.
  destruct (Nat.ltb_spec 0 (ncols xs)) as [Hx0|_]; [|now eexists].
  destruct (Nat.ltb_spec 1 (ncols xs)) as [Hx1|_]; [|now eexists].
  destruct H as [H|H]; [lia|].
  rewrite tf_mul_self.
  change (tf_reduce_sum ?t 1) with (Ok (map sum_list (rows t))).
  change (tf_expand_dims ?v 1) with (Ok (Mat 1 (map (fun a => [a]) v))).
  change (tf_expand_dims ?v 0) with (Ok (Mat (length v) [v])).
  cbv beta iota.
  destruct (Nat.ltb_spec 0 (ncols zs)) as [Hz0|_]; [|now eexists].
  destruct (Nat.ltb_spec 1 (ncols zs)) as [Hz1|_]; [lia|now eexists].
Qed.





Lemma squares_nonneg {A} (f : A -> R) (l : list A) :
  Forall (fun a => 0 <= a) (map (fun x => f x ^ 2) l).
Proof.
  apply Forall_forall. intros a Ha. apply in_map_iff in Ha.
  destruct Ha as (x & <- & _). apply pow2_ge_0.
Qed.

Lemma products_nonneg (l : list R) :
  Forall (fun a => 0 <= a) (map (fun x => x * x) l).
Proof.
  apply Forall_forall. intros a Ha. apply in_map_iff in Ha.
  destruct Ha as (x & <- & _). nra.
Qed.


(** X1: with two or more columns on both sides [log_prob] returns; of the
    data it reads columns 0 and 1 only, of a sample every column enters the
    prior term. *)
Theorem log_prob_wide_tables (self : LinearModel) (xs zs : matrix)
    (n cx S cz : nat) :
  has_shape xs n cx -> has_shape zs S cz -> (2 <= cx)%nat -> (2 <= cz)%nat ->
  log_prob xs zs self
  = (Ok (map (fun z =>
               - sum_list (map (fun row =>
                                  (nth 1 row 0 * nth 0 z 0 + nth 1 z 0
                                   - nth 0 row 0) ^ 2)
                               (rows xs))
                 / lik_variance self
               + - prior_variance self * sum_list (map (fun zj => zj * zj) z))
            (rows zs)),
     self).
Proof.
  intros (_ & Hcx & _) (_ & Hcz & _) Hx Hz.
  apply log_prob_two_columns; lia.
Qed.

Lemma log_prob_wide_tables_witness :
  log_prob (Mat 3 [[1; 2; 50]]) (Mat 3 [[3; 4; 5]]) (LinearModel_init 1 1)
  = (Ok [- 131], LinearModel_init 1 1).
Proof.
  assert (Hx : has_shape (Mat 3 [[1; 2; 50]]) 1 3)
    by (repeat split; repeat constructor).
  assert (Hz : has_shape (Mat 3 [[3; 4; 5]]) 1 3)
    by (repeat split; repeat constructor).
  rewrite (log_prob_wide_tables (LinearModel_init 1 1) _ _ 1 3 1 3 Hx Hz
             ltac:(lia) ltac:(lia)).
  cbn [rows map nth sum_list LinearModel_init lik_variance prior_variance].
  do 2 f_equal. apply (f_equal (fun a => [a])). field.
Defined.

(** X2: [log_prob] returns exactly when both arguments have at least two
    columns, whatever the numbers of rows; otherwise it raises.  In both
    cases the model is left as it was. *)
Theorem log_prob_returns_iff (self : LinearModel) (xs zs : matrix) :
  ((exists v, log_prob xs zs self = (Ok v, self) /\ length v = nrows zs)
   <-> (2 <= ncols xs)%nat /\ (2 <= ncols zs)%nat) /\
  ((exists e, log_prob xs zs self = (Raise e, self))
   <-> (ncols xs < 2)%nat \/ (ncols zs < 2)%nat).
Proof.
  destruct (le_lt_dec 2 (ncols xs)) as [Hx|Hx];
    destruct (le_lt_dec 2 (ncols zs)) as [Hz|Hz].
  1:{ pose proof (log_prob_two_columns self xs zs Hx Hz) as E. split; split.
      - intros _. now split.
      - intros _. eexists. split; [exact E|]. now rewrite length_map.
      - intros (e & He). rewrite E in He. discriminate.
      - lia. }
  all: destruct (log_prob_narrow self xs zs ltac:(lia)) as (e & E);
    split; split;
    [ intros (v & Hv & _); rewrite E in Hv; discriminate
    | lia
    | intros _; lia
    | intros _; now exists e ].
Qed.



(** X4: the samples are treated one by one: stacking two sample matrices
    concatenates the two results. *)
Theorem log_prob_samples_app (self : LinearModel) (xs : matrix) (c : nat)
    (zs1 zs2 : list (list R)) :
  (2 <= ncols xs)%nat -> (2 <= c)%nat ->
  exists v1 v2,
    log_prob xs (Mat c zs1) self = (Ok v1, self) /\
    log_prob xs (Mat c zs2) self = (Ok v2, self) /\
    log_prob xs (Mat c (zs1 ++ zs2)) self = (Ok (v1 ++ v2), self).
Proof.
  intros Hx Hc.
  rewrite !log_prob_two_columns by assumption. cbn [rows].
  do 2 eexists. split; [reflexivity|]. split; [reflexivity|].
  now rewrite map_app.
Qed.

Lemma log_prob_samples_app_witness :
  exists v1 v2,
    log_prob (table [(1, 2)]) (Mat 2 [[3; 4]]) (LinearModel_init 1 1)
    = (Ok v1, LinearModel_init 1 1) /\
    log_prob (table [(1, 2)]) (Mat 2 [[0; 0]]) (LinearModel_init 1 1)
    = (Ok v2, LinearModel_init 1 1) /\
    log_prob (table [(1, 2)]) (Mat 2 ([[3; 4]] ++ [[0; 0]]))
      (LinearModel_init 1 1)
    = (Ok (v1 ++ v2), LinearModel_init 1 1).
Proof.
  apply (log_prob_samples_app (LinearModel_init 1 1) (table [(1, 2)]) 2
           [[3; 4]] [[0; 0]]).
  - cbn. lia.
  - lia.
Defined.





Lemma Forall2_map_same {A} (P : R -> R -> Prop) (f g : A -> R) (l : list A) :
  (forall a, P (f a) (g a)) -> Forall2 P (map f l) (map g l).
Proof.
  intros H. induction l as [|a l IH]; cbn; constructor; auto.
Qed.

(** X7: for fixed arguments every entry grows with [lik_variance] (while it
    is positive) and falls as [prior_variance] grows: [prior_variance] acts
    as the weight of the penalty on the squared norm of the sample. *)
Theorem log_prob_monotone_in_variances (lik1 lik2 prior1 prior2 : R)
    (xs zs : matrix) :
  0 < lik1 -> lik1 <= lik2 -> prior2 <= prior1 ->
  (2 <= ncols xs)%nat -> (2 <= ncols zs)%nat ->
  exists v1 v2,
    log_prob xs zs (LinearModel_init lik1 prior1)
    = (Ok v1, LinearModel_init lik1 prior1) /\
    log_prob xs zs (LinearModel_init lik2 prior2)
    = (Ok v2, LinearModel_init lik2 prior2) /\
    Forall2 Rle v1 v2.
Proof.
  intros Hl1 Hl Hp Hx Hz.
  rewrite !log_prob_two_columns by assumption.
  do 2 eexists. split; [reflexivity|]. split; [reflexivity|].
  apply Forall2_map_same. intros z. unfold log_prob_entry.
  cbn [LinearModel_init lik_variance prior_variance].
  set (ssr := sum_list (map _ (rows xs))).
  set (zz := sum_list (map _ z)).
  assert (Hssr : 0 <= ssr) by apply sum_list_nonneg, squares_nonneg.
  assert (Hzz : 0 <= zz) by apply sum_list_nonneg, products_nonneg.
  assert (Hinv : / lik2 <= / lik1) by (apply Rinv_le_contravar; lra).
  unfold Rdiv. nra.
Qed.

Lemma log_prob_monotone_in_variances_witness :
  exists v1 v2,
    log_prob (table [(1, 2)]) (table [(3, 4)]) (LinearModel_init 1 2)
    = (Ok v1, LinearModel_init 1 2) /\
    log_prob (table [(1, 2)]) (table [(3, 4)]) (LinearModel_init 3 1)
    = (Ok v2, LinearModel_init 3 1) /\
    Forall2 Rle v1 v2.
Proof.
  apply (log_prob_monotone_in_variances 1 3 2 1
           (table [(1, 2)]) (table [(3, 4)])).
  - lra.
  - lra.
  - lra.
  - cbn. lia.
  - cbn. lia.
Defined.

(** X8: without data rows the likelihood term is zero and each entry is the
    prior term [- prior_variance * sum_j z_j^2]; without samples the result
    is the empty vector. *)
Theorem log_prob_empty (self : LinearModel) (c : nat) (t : matrix) :
  (2 <= c)%nat -> (2 <= ncols t)%nat ->
  log_prob (Mat c []) t self
  = (Ok (map (fun z => - prior_variance self
                       * sum_list (map (fun zj => zj * zj) z)) (rows t)),
     self) /\
  log_prob t (Mat c []) self = (Ok [], self).
Proof.
  intros Hc Ht. rewrite !log_prob_two_columns by assumption. split.
  - do 2 f_equal. apply map_ext. intros z. unfold log_prob_entry.
    cbn [rows map sum_list]. unfold Rdiv. ring.
  - reflexivity.
Qed.

Lemma log_prob_empty_witness :
  log_prob (Mat 2 []) (table [(3, 4)]) (LinearModel_init 1 2)
  = (Ok (map (fun z => - prior_variance (LinearModel_init 1 2)
                       * sum_list (map (fun zj => zj * zj) z))
            (rows (table [(3, 4)]))),
     LinearModel_init 1 2) /\
  log_prob (table [(3, 4)]) (Mat 2 []) (LinearModel_init 1 2)
  = (Ok [], LinearModel_init 1 2).
Proof.
  apply (log_prob_empty (LinearModel_init 1 2) 2 (table [(3, 4)])).
  - lia.
  - cbn. lia.
Defined.

(** * Further properties of [build_toy_dataset] and of the script *)

Lemma np_linspace_bounds (a b : R) (num : Z) (v : vector) :
  a <= b -> np_linspace a b num = Ok v -> Forall (fun x => a <= x <= b) v.
Proof.
  intros Hab. unfold np_linspace.
  destruct (Z.ltb_spec num 0) as [|Hnum]; [discriminate|].
  intros E. injection E as <-. apply Forall_forall. intros x Hx.
  apply in_map_iff in Hx. destruct Hx as (i & <- & Hi).
  apply in_seq in Hi.
  assert (Hi0 : 0 <= INR i) by apply pos_INR.
  destruct (Z.ltb_spec 1 num) as [Hgt|Hle].
  - assert (Hm : 0 < IZR (num - 1)) by (apply IZR_lt; lia).
    assert (Him : INR i <= IZR (num - 1)).
    { rewrite INR_IZR_INZ. apply IZR_le. lia. }
    set (m := IZR (num - 1)) in *.
    assert (Hinv : 0 < / m) by now apply Rinv_0_lt_compat.
    assert (Ht0 : 0 <= INR i * / m) by (apply Rmult_le_pos; lra).
    assert (Ht1 : INR i * / m <= 1).
    { replace 1 with (m * / m) by (field; lra).
      apply Rmult_le_compat_r; lra. }
    unfold Rdiv.
    replace (INR i * ((b - a) * / m) + a)
      with (a + (INR i * / m) * (b - a)) by ring.
    split; nra.
  - assert (i = 0%nat) by lia. subst i. cbn [INR]. split; lra.
Qed.

Lemma zip_with_rescaled (x noise : vector) :
  zip_with (fun yi xi => [yi; xi])
    (zip_with Rplus (vec_scale (75 / 1000) x) noise)
    (vec_div (vec_sub_scalar x 4) 4)
  = zip_with (fun xi e => [3 / 10 * xi + 3 / 10 + e; xi])
      (vec_div (vec_sub_scalar x 4) 4) noise.
Proof.
  unfold vec_scale, vec_div, vec_sub_scalar. rewrite map_map.
  revert noise. induction x as [|a x IH]; intros [|e noise]; cbn;
    try reflexivity.
  rewrite IH. f_equal. apply (f_equal (fun y => [y; (a - 4) / 4])). field.
Qed.



Section FrameworkExtras.

Variable rng : Type.
Variable seeded : Z -> rng.
Variable norm_rvs : R -> R -> Z -> rng -> result vector * rng.
Variable float32 : R -> R.

Hypothesis norm_rvs_size :
  forall loc scale size g v g',
    norm_rvs loc scale size g = (Ok v, g') -> Z.of_nat (length v) = size.

Local Abbreviation build := (build_toy_dataset seeded norm_rvs float32).
Local Abbreviation script := (main seeded norm_rvs float32).

(** X9: for an even positive [n_data] the inputs handed to [tf.constant]
    (the second column, before the cast) are [n_data/2] values in
    [[-1, -1/2]] followed by [n_data/2] values in [[1/2, 1]]. *)
Theorem build_toy_dataset_inputs_range (n : Z) (noise_std : R)
    (w : world rng) (noise : vector) (g' : rng) :
  Z.even n = true -> (0 < n)%Z ->
  norm_rvs 0 noise_std n (seeded 0) = (Ok noise, g') ->
  exists (t : matrix) (left right : vector),
    fst (build n noise_std w)
    = Ok {| data_table := cast_float32 float32 t |} /\
    tf_slice_col t 1 = Ok (left ++ right) /\
    Z.of_nat (length left) = (n / 2)%Z /\
    Z.of_nat (length right) = (n / 2)%Z /\
    Forall (fun x => - 1 <= x <= - (1 / 2)) left /\
    Forall (fun x => 1 / 2 <= x <= 1) right.
Proof.
  intros Heven Hpos Hrvs.
  destruct (build_toy_dataset_even _ seeded norm_rvs float32 norm_rvs_size
              n noise_std w noise g' Heven Hpos Hrvs)
    as (lo & hi & Hlo & Hhi & Lx & Hb).
  pose proof (norm_rvs_size _ _ _ _ _ _ Hrvs) as Ln.
  assert (Hk : (0 <= n / 2)%Z) by (apply Z.div_pos; lia).
  destruct (np_linspace_ok 0 2 (n / 2) Hk) as (lo' & Hlo' & Llo).
  destruct (np_linspace_ok 6 8 (n / 2) Hk) as (hi' & Hhi' & Lhi).
  rewrite Hlo in Hlo'. injection Hlo' as <-.
  rewrite Hhi in Hhi'. injection Hhi' as <-.
  exists (toy_table (lo ++ hi) noise),
    (vec_div (vec_sub_scalar lo 4) 4), (vec_div (vec_sub_scalar hi 4) 4).
  rewrite Hb. split; [reflexivity|].
  split; [|split; [|split; [|split]]].
  - unfold tf_slice_col, toy_table. cbn [ncols rows Nat.ltb Nat.leb].
    f_equal. rewrite map_zip_with. cbn [nth].
    rewrite zip_with_snd.
    + unfold vec_div, vec_sub_scalar. now rewrite map_id, !map_app.
    + rewrite zip_with_length; unfold vec_scale, vec_div, vec_sub_scalar;
        rewrite !length_map; lia.
  - unfold vec_div, vec_sub_scalar. rewrite !length_map. lia.
  - unfold vec_div, vec_sub_scalar. rewrite !length_map. lia.
  - pose proof (np_linspace_bounds 0 2 _ lo ltac:(lra) Hlo) as B.
    unfold vec_div, vec_sub_scalar. rewrite map_map, Forall_map.
    eapply Forall_impl; [|exact B]. cbn beta. intros x Hx. lra.
  - pose proof (np_linspace_bounds 6 8 _ hi ltac:(lra) Hhi) as B.
    unfold vec_div, vec_sub_scalar. rewrite map_map, Forall_map.
    eapply Forall_impl; [|exact B]. cbn beta. intros x Hx. lra.
Qed.

(** X10: in terms of the rescaled input [x] each row handed to
    [tf.constant] is [[0.3 * x + 0.3 + noise; x]]: the toy data lie on the
    line of slope 0.3 and intercept 0.3, up to the noise. *)
Theorem build_toy_dataset_linear (n : Z) (noise_std : R)
    (w : world rng) (noise : vector) (g' : rng) :
  Z.even n = true -> (0 < n)%Z ->
  norm_rvs 0 noise_std n (seeded 0) = (Ok noise, g') ->
  exists x : vector,
    Z.of_nat (length x) = n /\
    fst (build n noise_std w)
    = Ok {| data_table :=
              cast_float32 float32
                (Mat 2 (zip_with
                          (fun xi e => [3 / 10 * xi + 3 / 10 + e; xi])
                          x noise)) |}.
Proof.
  intros Heven Hpos Hrvs.
  destruct (build_toy_dataset_even _ seeded norm_rvs float32 norm_rvs_size
              n noise_std w noise g' Heven Hpos Hrvs)
    as (lo & hi & Hlo & Hhi & Lx & Hb).
  exists (vec_div (vec_sub_scalar (lo ++ hi) 4) 4). split.
  - unfold vec_div, vec_sub_scalar. now rewrite !length_map.
  - rewrite Hb. cbn [fst]. unfold toy_table.
    now rewrite zip_with_rescaled.
Qed.

(** X11: [n_data = 0] is accepted: the result is an empty table with two
    columns. *)
Theorem build_toy_dataset_zero (noise_std : R) (w : world rng)
    (noise : vector) (g' : rng) :
  norm_rvs 0 noise_std 0 (seeded 0) = (Ok noise, g') ->
  fst (build 0 noise_std w) = Ok {| data_table := Mat 2 [] |}.
Proof.
  intros Hrvs. pose proof (norm_rvs_size _ _ _ _ _ _ Hrvs) as Ln.
  destruct noise; [|cbn in Ln; lia].
  unfold build_toy_dataset, ed_set_seed, stats_norm_rvs.
  unfold bind, lift, modify. cbn [np_random trace].
  change (0 / 2)%Z with 0%Z.
  change (np_linspace 0 2 0) with (@Ok vector []).
  change (np_linspace 6 8 0) with (@Ok vector []).
  cbn [np_concatenate concat app]. rewrite Hrvs.
  reflexivity.
Qed.

(** X12: a negative [n_data] is refused by [np.linspace]: the call raises
    before anything is drawn, and it has already reset the seed to 0. *)
Theorem build_toy_dataset_negative (n : Z) (noise_std : R) (w : world rng) :
  (n < 0)%Z ->
  exists e,
    build n noise_std w
    = (Raise e,
       {| np_random := seeded 0; trace := trace w ++ [EvSetSeed 0] |}).
Proof.
  intros Hn.
  assert (Hdiv : (n / 2 < 0)%Z) by (apply Z.div_lt_upper_bound; lia).
  destruct (np_linspace_negative 0 2 (n / 2) Hdiv) as (e & He).
  exists e. unfold build_toy_dataset, ed_set_seed. unfold bind, lift, modify.
  now rewrite He.
Qed.


(** X14: the rows of a dataset built for an even positive [n_data] have two
    entries each, so every minibatch of rows is a table [log_prob] accepts:
    against samples of shape [S x 2] it returns [S] values. *)
Theorem build_toy_dataset_minibatch (n : Z) (noise_std : R)
    (w : world rng) (noise : vector) (g' : rng) :
  Z.even n = true -> (0 < n)%Z ->
  norm_rvs 0 noise_std n (seeded 0) = (Ok noise, g') ->
  exists d : Data,
    fst (build n noise_std w) = Ok d /\
    forall (self : LinearModel) (batch : list (list R)) (zs : matrix)
           (S : nat),
      incl batch (rows (data_table d)) -> has_shape zs S 2 ->
      has_shape (Mat (ncols (data_table d)) batch) (length batch) 2 /\
      exists v,
        log_prob (Mat (ncols (data_table d)) batch) zs self = (Ok v, self) /\
        length v = S.
Proof.
  intros Heven Hpos Hrvs.
  destruct (build_toy_dataset_even _ seeded norm_rvs float32 norm_rvs_size
              n noise_std w noise g' Heven Hpos Hrvs)
    as (lo & hi & _ & _ & _ & Hb).
  eexists. rewrite Hb. split; [reflexivity|].
  intros self batch zs S Hincl Hz. cbn [data_table] in *.
  assert (Hrows : Forall (fun row => length row = 2%nat)
                    (rows (cast_float32 float32
                             (toy_table (lo ++ hi) noise)))).
  { unfold cast_float32, toy_table. cbn [ncols rows].
    rewrite map_zip_with. now apply zip_with_rows_shape. }
  assert (Hbatch : has_shape
                     (Mat (ncols (cast_float32 float32
                                    (toy_table (lo ++ hi) noise))) batch)
                     (length batch) 2).
  { repeat split. cbn [rows]. apply Forall_forall. intros row Hin.
    rewrite Forall_forall in Hrows. now apply Hrows, Hincl. }
  split; [exact Hbatch|].
  rewrite (log_prob_closed_form self _ zs _ S Hbatch Hz).
  eexists. split; [reflexivity|]. rewrite length_map. apply Hz.
Qed.


(** X16: [run] is called on one inference object; it holds the model with
    both variances 0.01, a variational family of a single normal layer with
    as many variables as the model's [num_vars], and a dataset of shape
    [40 x 2]. *)
Theorem main_inference_wiring (w : world rng) (noise : vector) (g' : rng) :
  norm_rvs 0 (1 / 10) 40 (seeded 0) = (Ok noise, g') ->
  exists l inference,
    trace (snd (script w)) = trace w ++ l /\
    run_inferences l = [inference] /\
    mfvi_model inference = LinearModel_init (1 / 100) (1 / 100) /\
    map normal_num_vars (layers (mfvi_variational inference))
    = [num_vars (mfvi_model inference)] /\
    has_shape (data_table (mfvi_data inference)) 40 2.
Proof.
  intros Hrvs.
  destruct (main_run _ seeded norm_rvs float32 norm_rvs_size w noise g' Hrvs)
    as (lo & hi & Hlo & Hhi & ->).
  pose proof (norm_rvs_size _ _ _ _ _ _ Hrvs) as Ln.
  destruct (np_linspace_ok 0 2 20 ltac:(lia)) as (lo' & Hlo' & Llo).
  destruct (np_linspace_ok 6 8 20 ltac:(lia)) as (hi' & Hhi' & Lhi).
  rewrite Hlo in Hlo'. injection Hlo' as <-.
  rewrite Hhi in Hhi'. injection Hhi' as <-.
  do 2 eexists. cbn [snd trace]. split; [reflexivity|].
  cbn [main_events run_inferences]. split; [reflexivity|].
  cbn [mfvi_model mfvi_variational mfvi_data layers map normal_num_vars
       data_table]. split; [reflexivity|]. split; [reflexivity|].
  unfold cast_float32, toy_table, has_shape, nrows. cbn [ncols rows].
  rewrite map_zip_with.
  assert (Lx : length (lo ++ hi) = 40%nat)
    by (rewrite length_app, Llo, Lhi; reflexivity).
  assert (Ln' : length noise = 40%nat) by lia.
  repeat split.
  - rewrite !zip_with_length; unfold vec_scale, vec_div, vec_sub_scalar;
      rewrite ?length_map; try rewrite zip_with_length;
      rewrite ?length_map; lia.
  - now apply zip_with_rows_shape.
Qed.

End FrameworkExtras.

(** ** The further properties on the small instance of the framework *)

Lemma build_toy_dataset_inputs_range_witness :
  exists (t : matrix) (left right : vector),
    fst (build_toy_dataset toy_seeded toy_norm_rvs toy_float32 4 (1 / 10)
           toy_world)
    = Ok {| data_table := cast_float32 toy_float32 t |} /\
    tf_slice_col t 1 = Ok (left ++ right) /\
    Z.of_nat (length left) = (4 / 2)%Z /\
    Z.of_nat (length right) = (4 / 2)%Z /\
    Forall (fun x => - 1 <= x <= - (1 / 2)) left /\
    Forall (fun x => 1 / 2 <= x <= 1) right.
Proof.
  exact (build_toy_dataset_inputs_range Z toy_seeded toy_norm_rvs
           toy_float32 toy_norm_rvs_size 4 (1 / 10) toy_world
           (repeat 0 (Z.to_nat 4)) (0 + 4)%Z eq_refl eq_refl eq_refl).
Defined.

Lemma build_toy_dataset_linear_witness :
  exists x : vector,
    Z.of_nat (length x) = 4%Z /\
    fst (build_toy_dataset toy_seeded toy_norm_rvs toy_float32 4 (1 / 10)
           toy_world)
    = Ok {| data_table :=
              cast_float32 toy_float32
                (Mat 2 (zip_with
                          (fun xi e => [3 / 10 * xi + 3 / 10 + e; xi])
                          x (repeat 0 (Z.to_nat 4)))) |}.
Proof.
  exact (build_toy_dataset_linear Z toy_seeded toy_norm_rvs
           toy_float32 toy_norm_rvs_size 4 (1 / 10) toy_world
           (repeat 0 (Z.to_nat 4)) (0 + 4)%Z eq_refl eq_refl eq_refl).
Defined.

Lemma build_toy_dataset_zero_witness :
  fst (build_toy_dataset toy_seeded toy_norm_rvs toy_float32 0 (1 / 10)
         toy_world)
  = Ok {| data_table := Mat 2 [] |}.
Proof.
  exact (build_toy_dataset_zero Z toy_seeded toy_norm_rvs toy_float32
           toy_norm_rvs_size (1 / 10) toy_world
           (repeat 0 (Z.to_nat 0)) (0 + 0)%Z eq_refl).
Defined.

Lemma build_toy_dataset_negative_witness :
  exists e,
    build_toy_dataset toy_seeded toy_norm_rvs toy_float32 (-2) (1 / 10)
      toy_world
    = (Raise e,
       {| np_random := toy_seeded 0;
          trace := trace toy_world ++ [EvSetSeed 0] |}).
Proof.
  exact (build_toy_dataset_negative Z toy_seeded toy_norm_rvs toy_float32
           (-2) (1 / 10) toy_world eq_refl).
Defined.


Lemma build_toy_dataset_minibatch_witness :
  exists d : Data,
    fst (build_toy_dataset toy_seeded toy_norm_rvs toy_float32 4 (1 / 10)
           toy_world) = Ok d /\
    forall (self : LinearModel) (batch : list (list R)) (zs : matrix)
           (S : nat),
      incl batch (rows (data_table d)) -> has_shape zs S 2 ->
      has_shape (Mat (ncols (data_table d)) batch) (length batch) 2 /\
      exists v,
        log_prob (Mat (ncols (data_table d)) batch) zs self = (Ok v, self) /\
        length v = S.
Proof.
  exact (build_toy_dataset_minibatch Z toy_seeded toy_norm_rvs
           toy_float32 toy_norm_rvs_size 4 (1 / 10) toy_world
           (repeat 0 (Z.to_nat 4)) (0 + 4)%Z eq_refl eq_refl eq_refl).
Defined.


Lemma main_inference_wiring_witness :
  exists l inference,
    trace (snd (main toy_seeded toy_norm_rvs toy_float32 toy_world))
    = trace toy_world ++ l /\
    run_inferences l = [inference] /\
    mfvi_model inference = LinearModel_init (1 / 100) (1 / 100) /\
    map normal_num_vars (layers (mfvi_variational inference))
    = [num_vars (mfvi_model inference)] /\
    has_shape (data_table (mfvi_data inference)) 40 2.
Proof.
  exact (main_inference_wiring Z toy_seeded toy_norm_rvs toy_float32
           toy_norm_rvs_size toy_world (repeat 0 (Z.to_nat 40)) (0 + 40)%Z
           eq_refl).
Defined.
